(** * snail-api-wrapper: the [Snail] client of [index.js]

    A shallow embedding of the class exported by [index.js] and the
    properties of its ten methods.  Every method has the shape

      (args) => new Promise(async (resolve, reject) => { ... })

    so the embedding consists of
    - JavaScript values and truthiness,
    - the transport ([fetch]) as a parameter: what it is called with and how
      the promise it returns settles,
    - a small monad for the body of an [async] executor: it threads the
      state of the promise being built and the trace of calls made, and
      carries the way the body completes ([return], a thrown exception, an
      [await] that never resumes),
    - the methods, line by line. *)

From Stdlib Require Import String ZArith List Bool Lia.
Import ListNotations.
Open Scope string_scope.

(** ** JavaScript values *)

(** Numbers are the integral ones plus [NaN]; [-0] is not told apart from
    [0] (both are falsy).  A string is its sequence of code units, one
    character of [string] each, so that [String.length] is [.length].
    [JSError name message] is an object made by [new Error(message)] (or
    thrown by the runtime, with another [name]). *)
#[warnings="-register-all"]
Inductive JSValue : Type :=
| JSUndefined
| JSNull
| JSBool (b : bool)
| JSNaN
| JSNumber (z : Z)
| JSString (s : string)
| JSArray (items : list JSValue)
| JSObject (props : list (string * JSValue))
| JSError (name message : string).

(** ToBoolean: [undefined], [null], [false], [NaN], [0] and the empty string
    are falsy, everything else is truthy. *)
Definition truthy (v : JSValue) : bool :=
  match v with
  | JSUndefined | JSNull | JSNaN => false
  | JSBool b => b
  | JSNumber z => negb (z =? 0)%Z
  | JSString s => negb (s =? "")
  | JSArray _ | JSObject _ | JSError _ _ => true
  end.

(** The operator [!]. *)
Definition js_not (v : JSValue) : bool := negb (truthy v).

(** Own properties of an object, in insertion order; the first binding of a
    key is the property. *)
Fixpoint lookup (k : string) (props : list (string * JSValue)) : option JSValue :=
  match props with
  | [] => None
  | (k', v) :: rest => if k' =? k then Some v else lookup k rest
  end.

(** ** Promises, requests and responses *)

(** How a promise ends up once the job queue is drained. *)
Inductive PromiseOf (A : Type) : Type :=
| FulfilledWith (a : A)
| RejectedWith (e : JSValue)
| NeverSettles.
Arguments FulfilledWith {A} a.
Arguments RejectedWith {A} e.
Arguments NeverSettles {A}.

(** [promise.catch(handler)] where [handler] returns [undefined]: the derived
    promise. *)
Definition promise_catch (p : PromiseOf JSValue) : PromiseOf JSValue :=
  match p with
  | FulfilledWith v => FulfilledWith v
  | RejectedWith _ => FulfilledWith JSUndefined
  | NeverSettles => NeverSettles
  end.

(** The second argument of [fetch]; [body] is kept as the value handed to
    [JSON.stringify]. *)
Inductive Body : Type :=
| NoBody
| JSON_stringify (v : JSValue).

Record Request : Type := {
  url : string;
  method : string;
  headers : list (string * JSValue);
  body : Body
}.

(** The member [catch] of the object [fetch] resolves to.  The Response of
    the Fetch standard has [status], [statusText], [json()], [text()] and no
    [catch]: reading it gives [undefined], which is [NotCallable].  [Callable]
    stands for a response object that does bring a function under that name,
    one that returns without calling its argument. *)
Inductive Member : Type :=
| NotCallable
| Callable.

Record Response : Type := {
  status : Z;
  statusText : string;
  catch : Member;
  json : PromiseOf JSValue;
  text : PromiseOf string
}.

(** The global [fetch]: the promise it returns for a request. *)
Definition Transport : Type := Request -> PromiseOf Response.

(** ** The executor monad *)

(** What the body of an executor does that is visible from outside. *)
Inductive Event : Type :=
| Fetch (r : Request)
| Resolve (p : PromiseOf JSValue)
| Reject (e : JSValue).

(** The promise under construction: [settled] is [None] until the first call
    of [resolve] or [reject]; later calls change nothing. *)
Record Deferred : Type := {
  settled : option (PromiseOf JSValue);
  trace : list Event
}.

Inductive Completion (A : Type) : Type :=
| Normal (a : A)
| Returned
| Thrown (e : JSValue)
| Suspended.
Arguments Normal {A} a.
Arguments Returned {A}.
Arguments Thrown {A} e.
Arguments Suspended {A}.

Definition Exec (A : Type) : Type := Deferred -> Completion A * Deferred.

Definition ret {A} (a : A) : Exec A := fun d => (Normal a, d).

Definition bind {A B} (m : Exec A) (f : A -> Exec B) : Exec B :=
  fun d =>
    match m d with
    | (Normal a, d') => f a d'
    | (Returned, d') => (Returned, d')
    | (Thrown e, d') => (Thrown e, d')
    | (Suspended, d') => (Suspended, d')
    end.

Declare Scope exec_scope.
Delimit Scope exec_scope with exec.
Notation "x <- m ;; k" := (bind m (fun x => k))
  (at level 61, m at next level, right associativity) : exec_scope.
Notation "m ;; k" := (bind m (fun _ => k))
  (at level 61, right associativity) : exec_scope.
Open Scope exec_scope.

Definition record (ev : Event) (d : Deferred) : list Event := trace d ++ [ev].

Definition settle (p : PromiseOf JSValue) (d : Deferred) : option (PromiseOf JSValue) :=
  match settled d with
  | None => Some p
  | Some first => Some first
  end.

(** [resolve(v)] for a value that is not a promise. *)
Definition resolve (v : JSValue) : Exec unit :=
  fun d => (Normal tt, {| settled := settle (FulfilledWith v) d;
                          trace := record (Resolve (FulfilledWith v)) d |}).

(** [resolve(p)] for a promise: the promise under construction follows [p]. *)
Definition resolve_promise (p : PromiseOf JSValue) : Exec unit :=
  fun d => (Normal tt, {| settled := settle p d; trace := record (Resolve p) d |}).

Definition reject (e : JSValue) : Exec unit :=
  fun d => (Normal tt, {| settled := settle (RejectedWith e) d;
                          trace := record (Reject e) d |}).

(** [return;] *)
Definition return_ {A} : Exec A := fun d => (Returned, d).

Definition throw {A} (e : JSValue) : Exec A := fun d => (Thrown e, d).

(** [await p]: the value, the rejection reason thrown, or no resumption. *)
Definition await {A} (p : PromiseOf A) : Exec A :=
  fun d =>
    match p with
    | FulfilledWith a => (Normal a, d)
    | RejectedWith e => (Thrown e, d)
    | NeverSettles => (Suspended, d)
    end.

(** The reaction of [p.catch(handler)]: a job that runs [handler] on the
    reason when [p] rejects, after the code that registered it. *)
Definition reaction {A} (p : PromiseOf A) (handler : JSValue -> Exec unit) : Exec unit :=
  match p with
  | RejectedWith e => handler e
  | _ => ret tt
  end.

(** [if (c) stmt] *)
Definition when (c : bool) (stmt : Exec unit) : Exec unit :=
  if c then stmt else ret tt.

(** [o.k]: throws on [undefined] and [null]; the own properties of an object
    literal, [name] and [message] of an error, [length] of a string or an
    array; [undefined] otherwise. *)
Definition get (o : JSValue) (k : string) : Exec JSValue :=
  match o with
  | JSUndefined =>
      throw (JSError "TypeError" ("Cannot read properties of undefined (reading '" ++ k ++ "')"))
  | JSNull =>
      throw (JSError "TypeError" ("Cannot read properties of null (reading '" ++ k ++ "')"))
  | JSObject props =>
      match lookup k props with
      | Some v => ret v
      | None => ret JSUndefined
      end
  | JSError name message =>
      if k =? "name" then ret (JSString name)
      else if k =? "message" then ret (JSString message)
      else ret JSUndefined
  | JSString s =>
      if k =? "length" then ret (JSNumber (Z.of_nat (String.length s))) else ret JSUndefined
  | JSArray items =>
      if k =? "length" then ret (JSNumber (Z.of_nat (List.length items))) else ret JSUndefined
  | JSBool _ | JSNaN | JSNumber _ => ret JSUndefined
  end.

(** [!options.name || !options.price]: the right operand is evaluated only
    when the left one is false. *)
Definition missing_name_or_price (options : JSValue) : Exec bool :=
  name <- get options "name" ;;
  if js_not name then ret true
  else price <- get options "price" ;; ret (js_not price).

(** [res.catch(reject)] *)
Definition call_catch (res : Response) : Exec unit :=
  match catch res with
  | NotCallable => throw (JSError "TypeError" "res.catch is not a function")
  | Callable => ret tt
  end.

(** What a caller of a method observes: the promise returned, the calls
    made, and the exception (if any) that ended the executor.  The executor
    is an [async] function, so that exception rejects the executor's own
    promise, which nobody holds; the promise returned is not touched by it. *)
Record Outcome : Type := {
  promise : PromiseOf JSValue;
  events : list Event;
  unhandled : option JSValue
}.

(** [new Promise(async (resolve, reject) => body)] *)
Definition new_Promise (executor : Exec unit) : Outcome :=
  let (c, d) := executor {| settled := None; trace := [] |} in
  {| promise := match settled d with
                | Some p => p
                | None => NeverSettles
                end;
     events := trace d;
     unhandled := match c with
                  | Thrown e => Some e
                  | _ => None
                  end |}.

(** The requests among the events. *)
Fixpoint requests (evs : list Event) : list Request :=
  match evs with
  | [] => []
  | Fetch r :: rest => r :: requests rest
  | _ :: rest => requests rest
  end.

(** ** The methods *)

Definition missing_field_error : JSValue :=
  JSError "Error" "You need to provide a name and a price for your product!".

Section Methods.

(** The global [fetch] and the constructor's argument, which the methods
    close over. *)
Variable fetch : Transport.
Variable apiKey : JSValue.

Definition headers_literal : list (string * JSValue) :=
  [("Authorization", apiKey); ("Content-Type", JSString "application/json")].

(** [await fetch(url, init)] *)
Definition await_fetch (r : Request) : Exec Response :=
  bind (fun d => (Normal (fetch r), {| settled := settled d; trace := record (Fetch r) d |}))
       await.

Definition verifyPayment (code : string) : Outcome :=
  new_Promise (
    when (negb (String.length code =? 10)%nat) (resolve (JSBool false) ;; return_) ;;
    res <- await_fetch {| url := "https://snailpay.app/verify-payment?code=" ++ code;
                          method := "GET";
                          headers := headers_literal;
                          body := NoBody |} ;;
    call_catch res ;;
    when (negb (status res =? 200)%Z) (resolve (JSBool false) ;; return_) ;;
    let json_caught := promise_catch (json res) in
    resolve_promise json_caught ;;
    reaction (json res) reject).

Definition createPaymentLink (options : JSValue) : Outcome :=
  new_Promise (
    missing <- missing_name_or_price options ;;
    when missing (reject missing_field_error) ;;
    image <- get options "image" ;;
    name <- get options "name" ;;
    price <- get options "price" ;;
    res <- await_fetch {| url := "https://snailpay.app/payment-link";
                          method := "POST";
                          headers := headers_literal;
                          body := JSON_stringify
                                    (JSObject [("image", image); ("name", name); ("price", price)]) |} ;;
    call_catch res ;;
    when (negb (status res =? 200)%Z) (reject (JSError "Error" (statusText res)) ;; return_) ;;
    url <- await (text res) ;;
    resolve (JSString url)).

Definition createSubscriptionLink (options : JSValue) : Outcome :=
  new_Promise (
    missing <- missing_name_or_price options ;;
    when missing (reject missing_field_error) ;;
    image <- get options "image" ;;
    name <- get options "name" ;;
    price <- get options "price" ;;
    res <- await_fetch {| url := "https://snailpay.app/subscription-link";
                          method := "POST";
                          headers := headers_literal;
                          body := JSON_stringify
                                    (JSObject [("image", image); ("name", name); ("price", price)]) |} ;;
    call_catch res ;;
    when (negb (status res =? 200)%Z) (reject (JSError "Error" (statusText res)) ;; return_) ;;
    url <- await (text res) ;;
    resolve (JSString url)).

Definition listPayments : Outcome :=
  new_Promise (
    res <- await_fetch {| url := "https://snailpay.app/payment-list";
                          method := "GET";
                          headers := headers_literal;
                          body := NoBody |} ;;
    call_catch res ;;
    when (negb (status res =? 200)%Z) (reject (JSError "Error" (statusText res)) ;; return_) ;;
    payments <- await (json res) ;;
    resolve payments).

Definition listSubscriptions : Outcome :=
  new_Promise (
    res <- await_fetch {| url := "https://snailpay.app/subscription-list";
                          method := "GET";
                          headers := headers_literal;
                          body := NoBody |} ;;
    call_catch res ;;
    when (negb (status res =? 200)%Z) (reject (JSError "Error" (statusText res)) ;; return_) ;;
    subscriptions <- await (json res) ;;
    resolve subscriptions).

Definition listSubscriptionLinks : Outcome :=
  new_Promise (
    res <- await_fetch {| url := "https://snailpay.app/subscription-link-list";
                          method := "GET";
                          headers := headers_literal;
                          body := NoBody |} ;;
    call_catch res ;;
    when (negb (status res =? 200)%Z) (reject (JSError "Error" (statusText res)) ;; return_) ;;
    subscriptionLinks <- await (json res) ;;
    resolve subscriptionLinks).

Definition listPaymentLinks : Outcome :=
  new_Promise (
    res <- await_fetch {| url := "https://snailpay.app/payment-link-list";
                          method := "GET";
                          headers := headers_literal;
                          body := NoBody |} ;;
    call_catch res ;;
    when (negb (status res =? 200)%Z) (reject (JSError "Error" (statusText res)) ;; return_) ;;
    paymentLinks <- await (json res) ;;
    resolve paymentLinks).

Definition listPayouts : Outcome :=
  new_Promise (
    res <- await_fetch {| url := "https://snailpay.app/payout";
                          method := "GET";
                          headers := headers_literal;
                          body := NoBody |} ;;
    call_catch res ;;
    when (negb (status res =? 200)%Z) (reject (JSError "Error" (statusText res)) ;; return_) ;;
    payouts <- await (json res) ;;
    resolve payouts).

Definition newPayout (amount : JSValue) : Outcome :=
  new_Promise (
    res <- await_fetch {| url := "https://snailpay.app/new-payout";
                          method := "POST";
                          headers := headers_literal;
                          body := JSON_stringify (JSObject [("amount", amount)]) |} ;;
    call_catch res ;;
    when (negb (status res =? 200)%Z) (reject (JSError "Error" (statusText res)) ;; return_) ;;
    resolve JSUndefined).

Definition refundPayment (payments : JSValue) : Outcome :=
  new_Promise (
    res <- await_fetch {| url := "https://snailpay.app/refund-payment";
                          method := "POST";
                          headers := headers_literal;
                          body := JSON_stringify (JSObject [("payments", payments)]) |} ;;
    call_catch res ;;
    when (negb (status res =? 200)%Z) (reject (JSError "Error" (statusText res)) ;; return_) ;;
    resolve JSUndefined).

End Methods.

(** ** The class *)

(** An instance: the ten properties the constructor assigns to [this]. *)
Record Instance : Type := {
  this_verifyPayment : string -> Outcome;
  this_createPaymentLink : JSValue -> Outcome;
  this_createSubscriptionLink : JSValue -> Outcome;
  this_listPayments : Outcome;
  this_listSubscriptions : Outcome;
  this_listSubscriptionLinks : Outcome;
  this_listPaymentLinks : Outcome;
  this_listPayouts : Outcome;
  this_newPayout : JSValue -> Outcome;
  this_refundPayment : JSValue -> Outcome
}.

(** [new Snail(apiKey)], under a given global [fetch].  The constructor
    throws a string, or assigns the closures; it calls none of them. *)
Definition Snail (fetch : Transport) (apiKey : JSValue) : Completion Instance :=
  if js_not apiKey then Thrown (JSString "You need to provide an API key!")
  else Normal {|
    this_verifyPayment := verifyPayment fetch apiKey;
    this_createPaymentLink := createPaymentLink fetch apiKey;
    this_createSubscriptionLink := createSubscriptionLink fetch apiKey;
    this_listPayments := listPayments fetch apiKey;
    this_listSubscriptions := listSubscriptions fetch apiKey;
    this_listSubscriptionLinks := listSubscriptionLinks fetch apiKey;
    this_listPaymentLinks := listPaymentLinks fetch apiKey;
    this_listPayouts := listPayouts fetch apiKey;
    this_newPayout := newPayout fetch apiKey;
    this_refundPayment := refundPayment fetch apiKey
  |}.

(** A call of one of the methods, with its arguments. *)
Inductive Call : Type :=
| VerifyPayment (code : string)
| CreatePaymentLink (options : JSValue)
| CreateSubscriptionLink (options : JSValue)
| ListPayments
| ListSubscriptions
| ListSubscriptionLinks
| ListPaymentLinks
| ListPayouts
| NewPayout (amount : JSValue)
| RefundPayment (payments : JSValue).

Definition invoke (snail : Instance) (c : Call) : Outcome :=
  match c with
  | VerifyPayment code => this_verifyPayment snail code
  | CreatePaymentLink options => this_createPaymentLink snail options
  | CreateSubscriptionLink options => this_createSubscriptionLink snail options
  | ListPayments => this_listPayments snail
  | ListSubscriptions => this_listSubscriptions snail
  | ListSubscriptionLinks => this_listSubscriptionLinks snail
  | ListPaymentLinks => this_listPaymentLinks snail
  | ListPayouts => this_listPayouts snail
  | NewPayout amount => this_newPayout snail amount
  | RefundPayment payments => this_refundPayment snail payments
  end.

(** ** Transports and responses used in the examples *)

(** A transport that answers every request with [res]. *)
Definition responds (res : Response) : Transport := fun _ => FulfilledWith res.

(** A transport whose every call fails with [e]. *)
Definition fails (e : JSValue) : Transport := fun _ => RejectedWith e.

(** A Response of the Fetch standard with a JSON body: [text()] is not used
    on it here. *)
Definition json_response (st : Z) (st_text : string) (v : JSValue) : Response :=
  {| status := st; statusText := st_text; catch := NotCallable;
     json := FulfilledWith v; text := NeverSettles |}.

(** A Response of the Fetch standard with a text body that is not JSON. *)
Definition text_response (st : Z) (st_text : string) (t : string) : Response :=
  {| status := st; statusText := st_text; catch := NotCallable;
     json := RejectedWith (JSError "SyntaxError" "Unexpected token"); text := FulfilledWith t |}.

(** The same response objects, extended with a callable [catch]. *)
Definition with_catch (res : Response) : Response :=
  {| status := status res; statusText := statusText res; catch := Callable;
     json := json res; text := text res |}.


(** ** Vocabulary of the statements *)

(** The value of [o.k] for an object with the own properties [props]. *)
Definition field (k : string) (props : list (string * JSValue)) : JSValue :=
  match lookup k props with
  | Some v => v
  | None => JSUndefined
  end.

(** The object literal the two link methods serialise. *)
Definition link_body (props : list (string * JSValue)) : JSValue :=
  JSObject [("image", field "image" props); ("name", field "name" props);
            ("price", field "price" props)].

Definition get_request (apiKey : JSValue) (path : string) : Request :=
  {| url := "https://snailpay.app/" ++ path; method := "GET";
     headers := headers_literal apiKey; body := NoBody |}.

Definition post_request (apiKey : JSValue) (path : string) (v : JSValue) : Request :=
  {| url := "https://snailpay.app/" ++ path; method := "POST";
     headers := headers_literal apiKey; body := JSON_stringify v |}.

(** The first thing the executor did was [reject(new Error("You need to
    provide a name and a price for your product!"))]. *)
Definition signals_missing_field (o : Outcome) : Prop :=
  hd_error (events o) = Some (Reject missing_field_error).

(** The exception of calling [res.catch] on a Response that has none. *)
Definition catch_is_not_a_function : JSValue :=
  JSError "TypeError" "res.catch is not a function".

(** The payment object and the options of the examples. *)
Definition payment_p1 : JSValue := JSObject [("id", JSString "p1")].

Definition widget : JSValue :=
  JSObject [("name", JSString "Widget"); ("price", JSNumber 5)].

(** The name of the method a call goes to. *)
Definition method_name (c : Call) : string :=
  match c with
  | VerifyPayment _ => "verifyPayment"
  | CreatePaymentLink _ => "createPaymentLink"
  | CreateSubscriptionLink _ => "createSubscriptionLink"
  | ListPayments => "listPayments"
  | ListSubscriptions => "listSubscriptions"
  | ListSubscriptionLinks => "listSubscriptionLinks"
  | ListPaymentLinks => "listPaymentLinks"
  | ListPayouts => "listPayouts"
  | NewPayout _ => "newPayout"
  | RefundPayment _ => "refundPayment"
  end.

(** The URL literal of the [fetch] call in each method. *)
Definition endpoint (c : Call) : string :=
  match c with
  | VerifyPayment code => "https://snailpay.app/verify-payment?code=" ++ code
  | CreatePaymentLink _ => "https://snailpay.app/payment-link"
  | CreateSubscriptionLink _ => "https://snailpay.app/subscription-link"
  | ListPayments => "https://snailpay.app/payment-list"
  | ListSubscriptions => "https://snailpay.app/subscription-list"
  | ListSubscriptionLinks => "https://snailpay.app/subscription-link-list"
  | ListPaymentLinks => "https://snailpay.app/payment-link-list"
  | ListPayouts => "https://snailpay.app/payout"
  | NewPayout _ => "https://snailpay.app/new-payout"
  | RefundPayment _ => "https://snailpay.app/refund-payment"
  end.

(** What of a request does not come from the headers. *)
Definition target (r : Request) : string * string * Body := (url r, method r, body r).

(** * Properties *)

(** ** Proof automation *)

Ltac unfold_methods :=
  unfold verifyPayment, createPaymentLink, createSubscriptionLink, listPayments,
    listSubscriptions, listSubscriptionLinks, listPaymentLinks, listPayouts,
    newPayout, refundPayment in *.

Ltac unfold_exec :=
  unfold new_Promise, await_fetch, call_catch, missing_name_or_price, js_not, get,
    when, reaction, bind, ret, resolve, resolve_promise, reject, return_, throw,
    await, settle, record in *.

(** Case analysis on whatever the goal branches on, innermost first. *)
Ltac break_match :=
  match goal with
  | |- context [negb ?b] => destruct b eqn:?
  | |- context [match ?x with _ => _ end] =>
      lazymatch x with
      | context [match _ with _ => _ end] => fail
      | _ => destruct x eqn:?
      end
  end.

Ltac run_exec := unfold_methods; unfold_exec; cbn; repeat (break_match; cbn).

(** ** Truthiness *)

Lemma truthy_string (s : string) : truthy (JSString s) = true <-> s <> "".
Proof.
  cbn. destruct (String.eqb_spec s ""); cbn; split; congruence.
Qed.

Lemma truthy_number (z : Z) : truthy (JSNumber z) = true <-> z <> 0%Z.
Proof.
  cbn. destruct (Z.eqb_spec z 0); cbn; split; congruence.
Qed.

Lemma js_not_false (v : JSValue) : js_not v = true <-> truthy v = false.
Proof. unfold js_not. destruct (truthy v); cbn; split; congruence. Qed.

(** ** The requests of each method

    Every method calls [fetch] at most once, with a request fixed by its
    arguments; what the transport answers plays no part in it. *)

Section Requests.

Variable fetch : Transport.
Variable apiKey : JSValue.

Lemma verifyPayment_requests (code : string) :
  requests (events (verifyPayment fetch apiKey code)) =
    if (String.length code =? 10)%nat
    then [get_request apiKey ("verify-payment?code=" ++ code)]
    else [].
Proof. unfold get_request. run_exec; reflexivity. Qed.

Lemma createPaymentLink_requests (props : list (string * JSValue)) :
  requests (events (createPaymentLink fetch apiKey (JSObject props))) =
    [post_request apiKey "payment-link" (link_body props)].
Proof. unfold post_request, link_body, field. run_exec; reflexivity. Qed.

Lemma createSubscriptionLink_requests (props : list (string * JSValue)) :
  requests (events (createSubscriptionLink fetch apiKey (JSObject props))) =
    [post_request apiKey "subscription-link" (link_body props)].
Proof. unfold post_request, link_body, field. run_exec; reflexivity. Qed.

Lemma listPayments_requests :
  requests (events (listPayments fetch apiKey)) = [get_request apiKey "payment-list"].
Proof. run_exec; reflexivity. Qed.

Lemma listSubscriptions_requests :
  requests (events (listSubscriptions fetch apiKey)) =
    [get_request apiKey "subscription-list"].
Proof. run_exec; reflexivity. Qed.

Lemma listSubscriptionLinks_requests :
  requests (events (listSubscriptionLinks fetch apiKey)) =
    [get_request apiKey "subscription-link-list"].
Proof. run_exec; reflexivity. Qed.

Lemma listPaymentLinks_requests :
  requests (events (listPaymentLinks fetch apiKey)) =
    [get_request apiKey "payment-link-list"].
Proof. run_exec; reflexivity. Qed.

Lemma listPayouts_requests :
  requests (events (listPayouts fetch apiKey)) = [get_request apiKey "payout"].
Proof. run_exec; reflexivity. Qed.

Lemma newPayout_requests (amount : JSValue) :
  requests (events (newPayout fetch apiKey amount)) =
    [post_request apiKey "new-payout" (JSObject [("amount", amount)])].
Proof. run_exec; reflexivity. Qed.

Lemma refundPayment_requests (payments : JSValue) :
  requests (events (refundPayment fetch apiKey payments)) =
    [post_request apiKey "refund-payment" (JSObject [("payments", payments)])].
Proof. run_exec; reflexivity. Qed.

(** The link methods on an argument that need not be an object: no request
    when reading [options.name] throws, one request otherwise. *)
Lemma createPaymentLink_headers (options : JSValue) :
  Forall (fun r => headers r = headers_literal apiKey)
         (requests (events (createPaymentLink fetch apiKey options))).
Proof. run_exec; repeat constructor. Qed.

Lemma createSubscriptionLink_headers (options : JSValue) :
  Forall (fun r => headers r = headers_literal apiKey)
         (requests (events (createSubscriptionLink fetch apiKey options))).
Proof. run_exec; repeat constructor. Qed.

(** X15. No method calls [fetch] twice, whatever the transport answers:
    nothing is retried. *)
Lemma at_most_one_request (snail : Instance) (call : Call) :
  Snail fetch apiKey = Normal snail ->
  (length (requests (events (invoke snail call))) <= 1)%nat.
Proof.
  unfold Snail. destruct (js_not apiKey); [discriminate |].
  intros [= <-]. destruct call; cbn [invoke this_verifyPayment this_createPaymentLink
    this_createSubscriptionLink this_listPayments this_listSubscriptions
    this_listSubscriptionLinks this_listPaymentLinks this_listPayouts this_newPayout
    this_refundPayment].
  - rewrite verifyPayment_requests. destruct (_ =? _)%nat; cbn; lia.
  - run_exec; lia.
  - run_exec; lia.
  - rewrite listPayments_requests. cbn; lia.
  - rewrite listSubscriptions_requests. cbn; lia.
  - rewrite listSubscriptionLinks_requests. cbn; lia.
  - rewrite listPaymentLinks_requests. cbn; lia.
  - rewrite listPayouts_requests. cbn; lia.
  - rewrite newPayout_requests. cbn; lia.
  - rewrite refundPayment_requests. cbn; lia.
Qed.

End Requests.

(** ** How the returned promise settles *)

Section Settlement.

Variable apiKey : JSValue.

(** [code.length !== 10]: [false], and nothing else happens. *)
Lemma verifyPayment_malformed_code (fetch : Transport) (code : string) :
  String.length code <> 10%nat ->
  verifyPayment fetch apiKey code =
    {| promise := FulfilledWith (JSBool false);
       events := [Resolve (FulfilledWith (JSBool false))];
       unhandled := None |}.
Proof.
  intros Hlen. unfold verifyPayment.
  destruct (Nat.eqb_spec (String.length code) 10) as [Heq | _]; [contradiction |].
  reflexivity.
Qed.

(** A failing or missing name or price rejects the promise first; whatever
    follows cannot change that. *)
Lemma createPaymentLink_missing_field (fetch : Transport) (props : list (string * JSValue)) :
  truthy (field "name" props) = false \/ truthy (field "price" props) = false ->
  promise (createPaymentLink fetch apiKey (JSObject props)) = RejectedWith missing_field_error.
Proof.
  unfold field. intros H. run_exec; try reflexivity; cbn in H; destruct H; congruence.
Qed.

Lemma createSubscriptionLink_missing_field (fetch : Transport) (props : list (string * JSValue)) :
  truthy (field "name" props) = false \/ truthy (field "price" props) = false ->
  promise (createSubscriptionLink fetch apiKey (JSObject props)) =
    RejectedWith missing_field_error.
Proof.
  unfold field. intros H. run_exec; try reflexivity; cbn in H; destruct H; congruence.
Qed.

(** X16. When [fetch] rejects, [await] throws inside the executor: for
    every method that got as far as the request, the reason ends up
    unhandled, and the promise returned stays as it was (pending, or
    rejected by the validation of the link methods). *)
Lemma transport_failure_is_unhandled (e : JSValue) (call : Call) (snail : Instance) :
  Snail (fails e) apiKey = Normal snail ->
  requests (events (invoke snail call)) <> [] ->
  unhandled (invoke snail call) = Some e /\
  (promise (invoke snail call) = NeverSettles \/
   promise (invoke snail call) = RejectedWith missing_field_error).
Proof.
  unfold Snail. destruct (js_not apiKey); [discriminate |].
  intros [= <-]. destruct call; cbn [invoke this_verifyPayment this_createPaymentLink
    this_createSubscriptionLink this_listPayments this_listSubscriptions
    this_listSubscriptionLinks this_listPaymentLinks this_listPayouts this_newPayout
    this_refundPayment]; unfold fails; run_exec; intros Hreq;
    try (exfalso; apply Hreq; reflexivity); auto.
Qed.

(** X17. A response without [catch] ends the executor of every method at
    [res.catch(reject)], whatever its status and body: the TypeError is
    unhandled and the promise stays as it was. *)
Lemma response_without_catch_is_unused (res : Response) (call : Call) (snail : Instance) :
  catch res = NotCallable ->
  Snail (responds res) apiKey = Normal snail ->
  requests (events (invoke snail call)) <> [] ->
  unhandled (invoke snail call) = Some catch_is_not_a_function /\
  (promise (invoke snail call) = NeverSettles \/
   promise (invoke snail call) = RejectedWith missing_field_error).
Proof.
  intros Hcatch. unfold Snail. destruct (js_not apiKey); [discriminate |].
  intros [= <-]. destruct call; cbn [invoke this_verifyPayment this_createPaymentLink
    this_createSubscriptionLink this_listPayments this_listSubscriptions
    this_listSubscriptionLinks this_listPaymentLinks this_listPayouts this_newPayout
    this_refundPayment]; unfold responds, catch_is_not_a_function;
    unfold_methods; unfold_exec; cbn; rewrite ?Hcatch; cbn;
    repeat (break_match; cbn; rewrite ?Hcatch; cbn); intros Hreq;
    try (exfalso; apply Hreq; reflexivity); auto.
Qed.

(** X18. The status test, for any method and any response: the promise is
    fulfilled with something else than [false] only under status 200. *)
Lemma fulfilled_only_under_200 (res : Response) (call : Call) (snail : Instance) (v : JSValue) :
  Snail (responds res) apiKey = Normal snail ->
  promise (invoke snail call) = FulfilledWith v ->
  v <> JSBool false ->
  status res = 200%Z.
Proof.
  unfold Snail. destruct (js_not apiKey); [discriminate |].
  intros [= <-]. destruct (Z.eqb_spec (status res) 200) as [| Hne]; [trivial |].
  apply Z.eqb_neq in Hne.
  destruct call; cbn [invoke this_verifyPayment this_createPaymentLink
    this_createSubscriptionLink this_listPayments this_listSubscriptions
    this_listSubscriptionLinks this_listPaymentLinks this_listPayouts this_newPayout
    this_refundPayment]; unfold responds;
    unfold_methods; unfold_exec; cbn; rewrite ?Hne; cbn;
    repeat (break_match; cbn; rewrite ?Hne; cbn); intros Hp Hv; congruence.
Qed.

(** With a response object whose [catch] can be called, the status decides. *)
Section CallableCatch.

Variable res : Response.
Hypothesis res_catch : catch res = Callable.

Lemma verifyPayment_200 (code : string) (v : JSValue) :
  String.length code = 10%nat ->
  status res = 200%Z ->
  json res = FulfilledWith v ->
  promise (verifyPayment (responds res) apiKey code) = FulfilledWith v.
Proof.
  intros Hlen Hst Hjson. unfold verifyPayment, responds.
  unfold_exec. rewrite Hlen, res_catch, Hst, Hjson. reflexivity.
Qed.

Lemma verifyPayment_not_200 (code : string) :
  String.length code = 10%nat ->
  status res <> 200%Z ->
  promise (verifyPayment (responds res) apiKey code) = FulfilledWith (JSBool false).
Proof.
  intros Hlen Hst. apply Z.eqb_neq in Hst. unfold verifyPayment, responds.
  unfold_exec. rewrite Hlen, res_catch, Hst. reflexivity.
Qed.

(** A body that is not JSON: [reject] is called after the promise has
    been resolved with the promise [catch] derives, which is fulfilled
    with [undefined]. *)
Lemma verifyPayment_200_malformed_body (code : string) (e : JSValue) :
  String.length code = 10%nat ->
  status res = 200%Z ->
  json res = RejectedWith e ->
  promise (verifyPayment (responds res) apiKey code) = FulfilledWith JSUndefined.
Proof.
  intros Hlen Hst Hjson. unfold verifyPayment, responds.
  unfold_exec. rewrite Hlen, res_catch, Hst, Hjson. reflexivity.
Qed.

Lemma createPaymentLink_200 (props : list (string * JSValue)) (t : string) :
  truthy (field "name" props) = true ->
  truthy (field "price" props) = true ->
  status res = 200%Z ->
  text res = FulfilledWith t ->
  promise (createPaymentLink (responds res) apiKey (JSObject props)) =
    FulfilledWith (JSString t).
Proof.
  unfold field. intros Hname Hprice Hst Htext. unfold createPaymentLink, responds.
  unfold_exec. cbn. unfold js_not.
  destruct (lookup "name" props); destruct (lookup "price" props);
    cbn in *; try discriminate;
    rewrite Hname; cbn; rewrite Hprice; cbn;
    destruct (lookup "image" props); cbn; rewrite res_catch, Hst, Htext; reflexivity.
Qed.

Lemma createPaymentLink_not_200 (props : list (string * JSValue)) :
  truthy (field "name" props) = true ->
  truthy (field "price" props) = true ->
  status res <> 200%Z ->
  promise (createPaymentLink (responds res) apiKey (JSObject props)) =
    RejectedWith (JSError "Error" (statusText res)).
Proof.
  unfold field. intros Hname Hprice Hst. apply Z.eqb_neq in Hst.
  unfold createPaymentLink, responds.
  unfold_exec. cbn. unfold js_not.
  destruct (lookup "name" props); destruct (lookup "price" props);
    cbn in *; try discriminate;
    rewrite Hname; cbn; rewrite Hprice; cbn;
    destruct (lookup "image" props); cbn; rewrite res_catch, Hst; reflexivity.
Qed.

Lemma listPayments_200 (v : JSValue) :
  status res = 200%Z ->
  json res = FulfilledWith v ->
  promise (listPayments (responds res) apiKey) = FulfilledWith v.
Proof.
  intros Hst Hjson. unfold listPayments, responds.
  unfold_exec. rewrite res_catch, Hst, Hjson. reflexivity.
Qed.

Lemma listPayments_not_200 :
  status res <> 200%Z ->
  promise (listPayments (responds res) apiKey) =
    RejectedWith (JSError "Error" (statusText res)).
Proof.
  intros Hst. apply Z.eqb_neq in Hst. unfold listPayments, responds.
  unfold_exec. rewrite res_catch, Hst. reflexivity.
Qed.

Lemma newPayout_not_200 (amount : JSValue) :
  status res <> 200%Z ->
  promise (newPayout (responds res) apiKey amount) =
    RejectedWith (JSError "Error" (statusText res)).
Proof.
  intros Hst. apply Z.eqb_neq in Hst. unfold newPayout, responds.
  unfold_exec. rewrite res_catch, Hst. reflexivity.
Qed.


End CallableCatch.

End Settlement.

(** ** The claims *)

(** C1. [createPaymentLink({})]: the promise is rejected with the
    missing-field error, and the executor, which does not return after
    [reject], goes on to POST the (empty) options to [/payment-link]: the
    request is issued although validation failed. *)
Theorem C1_missing_fields_still_post :
  forall (fetch : Transport) (apiKey : JSValue),
    promise (createPaymentLink fetch apiKey (JSObject [])) = RejectedWith missing_field_error /\
    signals_missing_field (createPaymentLink fetch apiKey (JSObject [])) /\
    requests (events (createPaymentLink fetch apiKey (JSObject []))) =
      [post_request apiKey "payment-link"
         (JSObject [("image", JSUndefined); ("name", JSUndefined); ("price", JSUndefined)])].
Proof.
  intros fetch apiKey. split; [| split].
  - apply createPaymentLink_missing_field. left. reflexivity.
  - unfold signals_missing_field. run_exec; reflexivity.
  - apply createPaymentLink_requests.
Qed.

(** C2. When [fetch] itself rejects, [listPayments] and [verifyPayment]
    return a promise that never settles: the failure is thrown by [await]
    inside the async executor and stays unhandled there.  A body that is
    not JSON leaves [listPayments] pending in the same way, and makes
    [verifyPayment] resolve to [undefined] (shown with a response object
    that accepts the [catch] call).  Each call issued one request. *)
Theorem C2_transport_failure_is_not_propagated :
  forall (apiKey e : JSValue),
    promise (listPayments (fails e) apiKey) = NeverSettles /\
    unhandled (listPayments (fails e) apiKey) = Some e /\
    requests (events (listPayments (fails e) apiKey)) = [get_request apiKey "payment-list"] /\
    promise (verifyPayment (fails e) apiKey "abcdefghij") = NeverSettles /\
    unhandled (verifyPayment (fails e) apiKey "abcdefghij") = Some e /\
    promise (listPayments (responds (with_catch (text_response 200 "OK" "<html>"))) apiKey)
      = NeverSettles /\
    promise (verifyPayment (responds (with_catch (text_response 200 "OK" "<html>"))) apiKey
               "abcdefghij")
      = FulfilledWith JSUndefined.
Proof.
  intros apiKey e. repeat split; reflexivity.
Qed.

(** C3. [verifyPayment] with a 10-character code and a Response of the
    Fetch standard: the executor throws at [res.catch(reject)], so the
    promise never settles, under status 200 with body [{"id":"p1"}] as well
    as under status 404. *)
Theorem C3_verifyPayment_never_settles_on_a_response :
  forall (apiKey : JSValue),
    verifyPayment (responds (json_response 200 "OK" payment_p1)) apiKey "abcdefghij" =
      {| promise := NeverSettles;
         events := [Fetch (get_request apiKey "verify-payment?code=abcdefghij")];
         unhandled := Some catch_is_not_a_function |} /\
    verifyPayment (responds (json_response 404 "Not Found" JSNull)) apiKey "abcdefghij" =
      {| promise := NeverSettles;
         events := [Fetch (get_request apiKey "verify-payment?code=abcdefghij")];
         unhandled := Some catch_is_not_a_function |}.
Proof.
  intros apiKey. split; reflexivity.
Qed.

(** C4. For every string [code] whose length is not 10, [verifyPayment(code)]
    resolves to [false] and issues no request. *)
Theorem C4_malformed_code_resolves_false_without_request :
  forall (fetch : Transport) (apiKey : JSValue) (code : string),
    String.length code <> 10%nat ->
    promise (verifyPayment fetch apiKey code) = FulfilledWith (JSBool false) /\
    requests (events (verifyPayment fetch apiKey code)) = [].
Proof.
  intros fetch apiKey code Hlen.
  rewrite (verifyPayment_malformed_code apiKey fetch code Hlen). split; reflexivity.
Qed.

Lemma C4_witness :
  promise (verifyPayment (responds (json_response 200 "OK" payment_p1)) (JSString "key") "abc")
    = FulfilledWith (JSBool false) /\
  requests (events (verifyPayment (responds (json_response 200 "OK" payment_p1))
                      (JSString "key") "abc")) = [].
Proof.
  apply (C4_malformed_code_resolves_false_without_request
           (responds (json_response 200 "OK" payment_p1)) (JSString "key") "abc").
  cbn. lia.
Defined.

(** C5. [new Snail(apiKey)] throws (the string "You need to provide an API
    key!") for every falsy [apiKey], among them [undefined], [null] and the
    empty string, and returns an instance for every non-empty string.  The
    constructor is a function of its argument alone: it makes no call. *)
Theorem C5_constructor_requires_a_truthy_key :
  forall (fetch : Transport),
    (forall apiKey : JSValue,
        truthy apiKey = false ->
        Snail fetch apiKey = Thrown (JSString "You need to provide an API key!")) /\
    Snail fetch JSUndefined = Thrown (JSString "You need to provide an API key!") /\
    Snail fetch JSNull = Thrown (JSString "You need to provide an API key!") /\
    Snail fetch (JSString "") = Thrown (JSString "You need to provide an API key!") /\
    (forall s : string,
        s <> "" ->
        exists snail : Instance, Snail fetch (JSString s) = Normal snail).
Proof.
  intros fetch. repeat split; try reflexivity.
  - intros apiKey Hfalsy. unfold Snail, js_not. rewrite Hfalsy. reflexivity.
  - intros s Hs. apply truthy_string in Hs. unfold Snail, js_not. rewrite Hs.
    cbn. eexists. reflexivity.
Qed.

Lemma C5_witness :
  Snail (fails JSNull) (JSNumber 0) = Thrown (JSString "You need to provide an API key!") /\
  exists snail : Instance, Snail (fails JSNull) (JSString "your api key") = Normal snail.
Proof.
  destruct (C5_constructor_requires_a_truthy_key (fails JSNull)) as (Hfalsy & _ & _ & _ & Hstr).
  split.
  - apply (Hfalsy (JSNumber 0)). reflexivity.
  - apply (Hstr "your api key"). discriminate.
Defined.

(** C6. [createPaymentLink({name: "Widget", price: 5})] and a Response of
    the Fetch standard: the executor throws at [res.catch(reject)] after the
    POST, so the promise never settles, under status 200 with text
    "https://pay/x" as well as under status 500. *)
Theorem C6_createPaymentLink_never_settles_on_a_response :
  forall (apiKey : JSValue),
    createPaymentLink (responds (text_response 200 "OK" "https://pay/x")) apiKey widget =
      {| promise := NeverSettles;
         events := [Fetch (post_request apiKey "payment-link"
                             (JSObject [("image", JSUndefined); ("name", JSString "Widget");
                                        ("price", JSNumber 5)]))];
         unhandled := Some catch_is_not_a_function |} /\
    createPaymentLink (responds (text_response 500 "Internal Server Error" "")) apiKey widget =
      {| promise := NeverSettles;
         events := [Fetch (post_request apiKey "payment-link"
                             (JSObject [("image", JSUndefined); ("name", JSString "Widget");
                                        ("price", JSNumber 5)]))];
         unhandled := Some catch_is_not_a_function |}.
Proof.
  intros apiKey. split; reflexivity.
Qed.

(** C7. Under a status other than 200 (201, 204) and a Response of the Fetch
    standard, [newPayout] and [listPayments] are not rejected with the
    status text and [verifyPayment] is not resolved to [false]: the promise
    never settles, the executor having thrown at [res.catch(reject)] before
    the status test. *)
Theorem C7_status_test_is_not_reached :
  forall (apiKey : JSValue),
    promise (newPayout (responds (text_response 201 "Created" "")) apiKey (JSNumber 5))
      = NeverSettles /\
    unhandled (newPayout (responds (text_response 201 "Created" "")) apiKey (JSNumber 5))
      = Some catch_is_not_a_function /\
    promise (listPayments (responds (json_response 204 "No Content" JSNull)) apiKey)
      = NeverSettles /\
    promise (verifyPayment (responds (json_response 201 "Created" payment_p1)) apiKey
               "abcdefghij")
      = NeverSettles.
Proof.
  intros apiKey. repeat split; reflexivity.
Qed.

(** C8. Every request issued by any method of an instance built with
    [apiKey] has exactly the two headers [Authorization: apiKey] and
    [Content-Type: application/json], in that order. *)
Theorem C8_every_request_carries_the_two_headers :
  forall (fetch : Transport) (apiKey : JSValue) (snail : Instance) (call : Call) (req : Request),
    Snail fetch apiKey = Normal snail ->
    In req (requests (events (invoke snail call))) ->
    headers req =
      [("Authorization", apiKey); ("Content-Type", JSString "application/json")].
Proof.
  intros fetch apiKey snail call req. unfold Snail.
  destruct (js_not apiKey); [discriminate |].
  intros [= <-].
  assert (Hone : forall r, In req [r] -> headers r = headers_literal apiKey ->
                           headers req = headers_literal apiKey).
  { intros r [<- | []] Hr. exact Hr. }
  fold (headers_literal apiKey).
  destruct call; cbn [invoke this_verifyPayment this_createPaymentLink
    this_createSubscriptionLink this_listPayments this_listSubscriptions
    this_listSubscriptionLinks this_listPaymentLinks this_listPayouts this_newPayout
    this_refundPayment].
  - rewrite verifyPayment_requests. destruct (_ =? _)%nat; [| intros []].
    intros Hin. apply (Hone _ Hin). reflexivity.
  - intros Hin. pose proof (createPaymentLink_headers fetch apiKey options) as Hall.
    rewrite Forall_forall in Hall. apply Hall, Hin.
  - intros Hin. pose proof (createSubscriptionLink_headers fetch apiKey options) as Hall.
    rewrite Forall_forall in Hall. apply Hall, Hin.
  - rewrite listPayments_requests. intros Hin. apply (Hone _ Hin). reflexivity.
  - rewrite listSubscriptions_requests. intros Hin. apply (Hone _ Hin). reflexivity.
  - rewrite listSubscriptionLinks_requests. intros Hin. apply (Hone _ Hin). reflexivity.
  - rewrite listPaymentLinks_requests. intros Hin. apply (Hone _ Hin). reflexivity.
  - rewrite listPayouts_requests. intros Hin. apply (Hone _ Hin). reflexivity.
  - rewrite newPayout_requests. intros Hin. apply (Hone _ Hin). reflexivity.
  - rewrite refundPayment_requests. intros Hin. apply (Hone _ Hin). reflexivity.
Qed.

Lemma C8_witness :
  headers (post_request (JSString "sk_live") "new-payout" (JSObject [("amount", JSNumber 5)])) =
    [("Authorization", JSString "sk_live"); ("Content-Type", JSString "application/json")].
Proof.
  apply (C8_every_request_carries_the_two_headers
           (fails JSNull) (JSString "sk_live")
           {| this_verifyPayment := verifyPayment (fails JSNull) (JSString "sk_live");
              this_createPaymentLink := createPaymentLink (fails JSNull) (JSString "sk_live");
              this_createSubscriptionLink :=
                createSubscriptionLink (fails JSNull) (JSString "sk_live");
              this_listPayments := listPayments (fails JSNull) (JSString "sk_live");
              this_listSubscriptions := listSubscriptions (fails JSNull) (JSString "sk_live");
              this_listSubscriptionLinks :=
                listSubscriptionLinks (fails JSNull) (JSString "sk_live");
              this_listPaymentLinks := listPaymentLinks (fails JSNull) (JSString "sk_live");
              this_listPayouts := listPayouts (fails JSNull) (JSString "sk_live");
              this_newPayout := newPayout (fails JSNull) (JSString "sk_live");
              this_refundPayment := refundPayment (fails JSNull) (JSString "sk_live") |}
           (NewPayout (JSNumber 5))).
  - reflexivity.
  - cbn. left. reflexivity.
Defined.

(** C9. For an options object, [createPaymentLink] and
    [createSubscriptionLink] signal the missing-field error exactly when
    [options.name] is falsy or [options.price] is falsy.  So a price of [0]
    and a name [""] count as missing, and a negative price (with a truthy
    name) is not signalled: the client never tests the sign of the price.
    In every case the request is issued. *)
Theorem C9_missing_field_is_falsiness :
  forall (fetch : Transport) (apiKey : JSValue) (props : list (string * JSValue)),
    (signals_missing_field (createPaymentLink fetch apiKey (JSObject props)) <->
       truthy (field "name" props) = false \/ truthy (field "price" props) = false) /\
    (signals_missing_field (createSubscriptionLink fetch apiKey (JSObject props)) <->
       truthy (field "name" props) = false \/ truthy (field "price" props) = false) /\
    (field "price" props = JSNumber 0 \/ field "name" props = JSString "" ->
       signals_missing_field (createPaymentLink fetch apiKey (JSObject props)) /\
       signals_missing_field (createSubscriptionLink fetch apiKey (JSObject props))) /\
    (forall z : Z,
        (z < 0)%Z ->
        field "price" props = JSNumber z ->
        truthy (field "name" props) = true ->
        ~ signals_missing_field (createPaymentLink fetch apiKey (JSObject props)) /\
        ~ signals_missing_field (createSubscriptionLink fetch apiKey (JSObject props))) /\
    requests (events (createPaymentLink fetch apiKey (JSObject props))) =
      [post_request apiKey "payment-link" (link_body props)] /\
    requests (events (createSubscriptionLink fetch apiKey (JSObject props))) =
      [post_request apiKey "subscription-link" (link_body props)].
Proof.
  intros fetch apiKey props.
  assert (Hp : signals_missing_field (createPaymentLink fetch apiKey (JSObject props)) <->
               truthy (field "name" props) = false \/ truthy (field "price" props) = false).
  { unfold signals_missing_field, field. run_exec; split;
      solve [ intros _; auto | intros [? | ?]; congruence | discriminate | reflexivity ]. }
  assert (Hs : signals_missing_field (createSubscriptionLink fetch apiKey (JSObject props)) <->
               truthy (field "name" props) = false \/ truthy (field "price" props) = false).
  { unfold signals_missing_field, field. run_exec; split;
      solve [ intros _; auto | intros [? | ?]; congruence | discriminate | reflexivity ]. }
  split; [exact Hp |]. split; [exact Hs |]. split; [| split; [| split]].
  - intros Hmissing.
    assert (Hfalsy : truthy (field "name" props) = false \/ truthy (field "price" props) = false).
    { destruct Hmissing as [-> | ->]; [right | left]; reflexivity. }
    split; [apply Hp | apply Hs]; exact Hfalsy.
  - intros z Hneg Hprice Hname.
    assert (Htruthy : truthy (field "price" props) = true).
    { rewrite Hprice. apply truthy_number. lia. }
    split; intros Hsig; [apply Hp in Hsig | apply Hs in Hsig];
      destruct Hsig; congruence.
  - apply createPaymentLink_requests.
  - apply createSubscriptionLink_requests.
Qed.

Lemma C9_witness :
  ~ signals_missing_field
      (createPaymentLink (fails JSNull) (JSString "key")
         (JSObject [("name", JSString "Widget"); ("price", JSNumber (-3))])) /\
  signals_missing_field
      (createSubscriptionLink (fails JSNull) (JSString "key")
         (JSObject [("name", JSString "Widget"); ("price", JSNumber 0)])).
Proof.
  split.
  - destruct (C9_missing_field_is_falsiness (fails JSNull) (JSString "key")
                [("name", JSString "Widget"); ("price", JSNumber (-3))])
      as (_ & _ & _ & Hneg & _).
    apply (Hneg (-3)%Z); [lia | reflexivity | reflexivity].
  - destruct (C9_missing_field_is_falsiness (fails JSNull) (JSString "key")
                [("name", JSString "Widget"); ("price", JSNumber 0)])
      as (_ & _ & Hzero & _).
    apply Hzero. left. reflexivity.
Defined.

(** C10. For every 10-character [code], [verifyPayment] issues exactly one
    request, and its URL is "https://snailpay.app/verify-payment?code="
    followed by [code] as it is: no character of the code is encoded. *)
Theorem C10_verify_url_is_the_plain_concatenation :
  forall (fetch : Transport) (apiKey : JSValue) (code : string),
    String.length code = 10%nat ->
    exists req : Request,
      requests (events (verifyPayment fetch apiKey code)) = [req] /\
      url req = "https://snailpay.app/verify-payment?code=" ++ code.
Proof.
  intros fetch apiKey code Hlen.
  rewrite verifyPayment_requests, Hlen. cbn [Nat.eqb].
  eexists. split; reflexivity.
Qed.

Lemma C10_witness :
  exists req : Request,
    requests (events (verifyPayment (fails JSNull) (JSString "key") "a b&c=d/?#")) = [req] /\
    url req = "https://snailpay.app/verify-payment?code=a b&c=d/?#".
Proof.
  apply (C10_verify_url_is_the_plain_concatenation (fails JSNull) (JSString "key") "a b&c=d/?#").
  reflexivity.
Defined.

(** ** Further properties of the methods *)

(** *** Settlement of the list methods and of the two void methods *)


















(** *** The link methods *)

(** X8. Whenever [options.name] or [options.price] is falsy, both link
    methods return a promise rejected with the missing-field error, whatever
    the transport answers afterwards (a 200 included), and both issue their
    POST all the same. *)
Theorem missing_field_rejects_and_posts :
  forall (fetch : Transport) (apiKey : JSValue) (props : list (string * JSValue)),
    truthy (field "name" props) = false \/ truthy (field "price" props) = false ->
    promise (createPaymentLink fetch apiKey (JSObject props)) =
      RejectedWith missing_field_error /\
    requests (events (createPaymentLink fetch apiKey (JSObject props))) =
      [post_request apiKey "payment-link" (link_body props)] /\
    promise (createSubscriptionLink fetch apiKey (JSObject props)) =
      RejectedWith missing_field_error /\
    requests (events (createSubscriptionLink fetch apiKey (JSObject props))) =
      [post_request apiKey "subscription-link" (link_body props)].
Proof.
  intros fetch apiKey props Hfalsy. repeat split.
  - apply createPaymentLink_missing_field, Hfalsy.
  - apply createPaymentLink_requests.
  - apply createSubscriptionLink_missing_field, Hfalsy.
  - apply createSubscriptionLink_requests.
Qed.

Lemma missing_field_rejects_and_posts_witness :
  promise (createSubscriptionLink
             (responds (with_catch (text_response 200 "OK" "https://pay/x")))
             (JSString "key") (JSObject [("name", JSString "Widget"); ("price", JSNumber 0)]))
    = RejectedWith missing_field_error.
Proof.
  apply (missing_field_rejects_and_posts
           (responds (with_catch (text_response 200 "OK" "https://pay/x")))
           (JSString "key") [("name", JSString "Widget"); ("price", JSNumber 0)]).
  right. reflexivity.
Defined.








(** Of an options object, the link methods read [image], [name] and [price]
    and nothing else. *)
Lemma createPaymentLink_reads_three_fields
    (fetch : Transport) (apiKey : JSValue) (props : list (string * JSValue)) :
  createPaymentLink fetch apiKey (JSObject props) =
  createPaymentLink fetch apiKey (link_body props).
Proof.
  unfold link_body, field, createPaymentLink, missing_name_or_price, get.
  cbn [lookup String.eqb Ascii.eqb Bool.eqb].
  destruct (lookup "name" props), (lookup "price" props), (lookup "image" props);
    reflexivity.
Qed.

Lemma createSubscriptionLink_reads_three_fields
    (fetch : Transport) (apiKey : JSValue) (props : list (string * JSValue)) :
  createSubscriptionLink fetch apiKey (JSObject props) =
  createSubscriptionLink fetch apiKey (link_body props).
Proof.
  unfold link_body, field, createSubscriptionLink, missing_name_or_price, get.
  cbn [lookup String.eqb Ascii.eqb Bool.eqb].
  destruct (lookup "name" props), (lookup "price" props), (lookup "image" props);
    reflexivity.
Qed.

(** X12. Two options objects with the same [image], [name] and [price] get
    the same treatment from both link methods (same request, same
    settlement): no other property of the options is read or sent. *)
Theorem link_methods_use_three_fields_only :
  forall (fetch : Transport) (apiKey : JSValue) (props props' : list (string * JSValue)),
    field "image" props = field "image" props' ->
    field "name" props = field "name" props' ->
    field "price" props = field "price" props' ->
    createPaymentLink fetch apiKey (JSObject props) =
      createPaymentLink fetch apiKey (JSObject props') /\
    createSubscriptionLink fetch apiKey (JSObject props) =
      createSubscriptionLink fetch apiKey (JSObject props').
Proof.
  intros fetch apiKey props props' Himage Hname Hprice. split.
  - rewrite (createPaymentLink_reads_three_fields fetch apiKey props),
            (createPaymentLink_reads_three_fields fetch apiKey props').
    unfold link_body. rewrite Himage, Hname, Hprice. reflexivity.
  - rewrite (createSubscriptionLink_reads_three_fields fetch apiKey props),
            (createSubscriptionLink_reads_three_fields fetch apiKey props').
    unfold link_body. rewrite Himage, Hname, Hprice. reflexivity.
Qed.

Lemma link_methods_use_three_fields_only_witness :
  createPaymentLink (fails JSNull) (JSString "key")
    (JSObject [("name", JSString "Widget"); ("price", JSNumber 5)]) =
  createPaymentLink (fails JSNull) (JSString "key")
    (JSObject [("currency", JSString "EUR"); ("price", JSNumber 5);
               ("name", JSString "Widget")]).
Proof.
  apply (link_methods_use_three_fields_only (fails JSNull) (JSString "key")
           [("name", JSString "Widget"); ("price", JSNumber 5)]
           [("currency", JSString "EUR"); ("price", JSNumber 5);
            ("name", JSString "Widget")]);
    reflexivity.
Defined.

(** *** [verifyPayment] *)





(** *** All the methods *)

Lemma at_most_one_request_witness :
  (length (requests (events (refundPayment (fails JSNull) (JSString "key") (JSArray [])))) <= 1)%nat.
Proof.
  exact (at_most_one_request (fails JSNull) (JSString "key") _
           (RefundPayment (JSArray [])) eq_refl).
Defined.

Lemma transport_failure_is_unhandled_witness :
  unhandled (listPayouts (fails (JSError "TypeError" "fetch failed")) (JSString "key"))
    = Some (JSError "TypeError" "fetch failed") /\
  (promise (listPayouts (fails (JSError "TypeError" "fetch failed")) (JSString "key"))
     = NeverSettles \/
   promise (listPayouts (fails (JSError "TypeError" "fetch failed")) (JSString "key"))
     = RejectedWith missing_field_error).
Proof.
  apply (transport_failure_is_unhandled (JSString "key") (JSError "TypeError" "fetch failed")
           ListPayouts _ eq_refl).
  discriminate.
Defined.

Lemma response_without_catch_is_unused_witness :
  unhandled (listSubscriptions (responds (json_response 200 "OK" (JSArray []))) (JSString "key"))
    = Some catch_is_not_a_function /\
  (promise (listSubscriptions (responds (json_response 200 "OK" (JSArray []))) (JSString "key"))
     = NeverSettles \/
   promise (listSubscriptions (responds (json_response 200 "OK" (JSArray []))) (JSString "key"))
     = RejectedWith missing_field_error).
Proof.
  apply (response_without_catch_is_unused (JSString "key") (json_response 200 "OK" (JSArray []))
           ListSubscriptions _ eq_refl eq_refl).
  discriminate.
Defined.

Lemma fulfilled_only_under_200_witness :
  status (with_catch (json_response 200 "OK" (JSArray []))) = 200%Z.
Proof.
  apply (fulfilled_only_under_200 (JSString "key") (with_catch (json_response 200 "OK" (JSArray [])))
           ListPaymentLinks _ (JSArray []) eq_refl eq_refl).
  discriminate.
Defined.


(** The requests of a link method are those it issues when the transport
    fails: what [fetch] answers comes too late to matter. *)
Lemma createPaymentLink_requests_any (fetch : Transport) (apiKey options : JSValue) :
  requests (events (createPaymentLink fetch apiKey options)) =
  requests (events (createPaymentLink (fails JSNull) apiKey options)).
Proof. unfold fails. run_exec; reflexivity. Qed.

Lemma createSubscriptionLink_requests_any (fetch : Transport) (apiKey options : JSValue) :
  requests (events (createSubscriptionLink fetch apiKey options)) =
  requests (events (createSubscriptionLink (fails JSNull) apiKey options)).
Proof. unfold fails. run_exec; reflexivity. Qed.

Ltac open_instance H :=
  unfold Snail in H;
  match type of H with
  | (if ?c then _ else _) = _ => destruct c; [discriminate H |]
  end;
  injection H as <-.

Ltac invoke_method :=
  cbn [invoke this_verifyPayment this_createPaymentLink
    this_createSubscriptionLink this_listPayments this_listSubscriptions
    this_listSubscriptionLinks this_listPaymentLinks this_listPayouts this_newPayout
    this_refundPayment].

(** X20. URL, HTTP method and body of the requests of a call depend on the
    method called and its arguments only: not on the API key, which goes
    into the [Authorization] header and nowhere else, and not on what the
    transport answers. *)
Theorem key_and_transport_do_not_change_the_target :
  forall (fetch fetch' : Transport) (apiKey apiKey' : JSValue)
         (snail snail' : Instance) (call : Call),
    Snail fetch apiKey = Normal snail ->
    Snail fetch' apiKey' = Normal snail' ->
    map target (requests (events (invoke snail call))) =
    map target (requests (events (invoke snail' call))).
Proof.
  intros fetch fetch' apiKey apiKey' snail snail' call H H'.
  open_instance H. open_instance H'.
  destruct call; invoke_method.
  - rewrite !verifyPayment_requests. destruct (_ =? _)%nat; reflexivity.
  - rewrite (createPaymentLink_requests_any fetch), (createPaymentLink_requests_any fetch').
    unfold fails. run_exec; reflexivity.
  - rewrite (createSubscriptionLink_requests_any fetch),
            (createSubscriptionLink_requests_any fetch').
    unfold fails. run_exec; reflexivity.
  - rewrite !listPayments_requests. reflexivity.
  - rewrite !listSubscriptions_requests. reflexivity.
  - rewrite !listSubscriptionLinks_requests. reflexivity.
  - rewrite !listPaymentLinks_requests. reflexivity.
  - rewrite !listPayouts_requests. reflexivity.
  - rewrite !newPayout_requests. reflexivity.
  - rewrite !refundPayment_requests. reflexivity.
Qed.

Lemma key_and_transport_do_not_change_the_target_witness :
  map target (requests (events (newPayout (fails JSNull) (JSString "key one") (JSNumber 5)))) =
  map target (requests (events (newPayout (responds (json_response 200 "OK" JSNull))
                                  (JSString "key two") (JSNumber 5)))).
Proof.
  exact (key_and_transport_do_not_change_the_target
           (fails JSNull) (responds (json_response 200 "OK" JSNull))
           (JSString "key one") (JSString "key two") _ _ (NewPayout (JSNumber 5))
           eq_refl eq_refl).
Defined.

(** Every request of a call goes to the URL of its method. *)
Lemma request_url (fetch : Transport) (apiKey : JSValue) (snail : Instance)
    (call : Call) (req : Request) :
  Snail fetch apiKey = Normal snail ->
  In req (requests (events (invoke snail call))) ->
  url req = endpoint call.
Proof.
  intros H. open_instance H.
  assert (Hone : forall r, In req [r] -> url req = url r).
  { intros r [<- | []]. reflexivity. }
  destruct call; invoke_method; cbn [endpoint].
  - rewrite verifyPayment_requests. destruct (_ =? _)%nat; [| intros []].
    intros Hin. apply Hone in Hin. exact Hin.
  - rewrite createPaymentLink_requests_any. unfold fails. run_exec;
      intros Hin; solve [destruct Hin | apply Hone in Hin; exact Hin].
  - rewrite createSubscriptionLink_requests_any. unfold fails. run_exec;
      intros Hin; solve [destruct Hin | apply Hone in Hin; exact Hin].
  - rewrite listPayments_requests. intros Hin. apply Hone in Hin. exact Hin.
  - rewrite listSubscriptions_requests. intros Hin. apply Hone in Hin. exact Hin.
  - rewrite listSubscriptionLinks_requests. intros Hin. apply Hone in Hin. exact Hin.
  - rewrite listPaymentLinks_requests. intros Hin. apply Hone in Hin. exact Hin.
  - rewrite listPayouts_requests. intros Hin. apply Hone in Hin. exact Hin.
  - rewrite newPayout_requests. intros Hin. apply Hone in Hin. exact Hin.
  - rewrite refundPayment_requests. intros Hin. apply Hone in Hin. exact Hin.
Qed.

Lemma endpoint_identifies_method (c c' : Call) :
  endpoint c = endpoint c' -> method_name c = method_name c'.
Proof.
  destruct c, c'; cbn; intros H; try reflexivity; discriminate H.
Qed.

(** X21. The ten methods go to ten different URLs: two requests with the
    same URL, issued by calls on any two instances, come from the same
    method.  In particular [listSubscriptionLinks] and [listPaymentLinks] do
    not share an endpoint. *)
Theorem url_identifies_the_method :
  forall (fetch fetch' : Transport) (apiKey apiKey' : JSValue)
         (snail snail' : Instance) (call call' : Call) (req req' : Request),
    Snail fetch apiKey = Normal snail ->
    Snail fetch' apiKey' = Normal snail' ->
    In req (requests (events (invoke snail call))) ->
    In req' (requests (events (invoke snail' call'))) ->
    url req = url req' ->
    method_name call = method_name call'.
Proof.
  intros fetch fetch' apiKey apiKey' snail snail' call call' req req' H H' Hin Hin' Hurl.
  apply endpoint_identifies_method.
  rewrite <- (request_url fetch apiKey snail call req H Hin).
  rewrite <- (request_url fetch' apiKey' snail' call' req' H' Hin').
  exact Hurl.
Qed.

Lemma url_identifies_the_method_witness :
  method_name ListPaymentLinks = method_name ListPaymentLinks.
Proof.
  apply (url_identifies_the_method
           (fails JSNull) (responds (json_response 200 "OK" JSNull))
           (JSString "key one") (JSString "key two") _ _ ListPaymentLinks ListPaymentLinks
           (get_request (JSString "key one") "payment-link-list")
           (get_request (JSString "key two") "payment-link-list") eq_refl eq_refl).
  - left. reflexivity.
  - left. reflexivity.
  - reflexivity.
Defined.
